(** * tlx.apigateway: the Lambda proxy-response decorator and its input validators

    A shallow embedding of [src/tlx/apigateway/__init__.py] and the properties
    its specification states about it.

    - [Py]: the Python values the module handles, dictionaries in insertion
      order, truthiness, [repr] and [str].
    - [Apigateway]: exceptions and results, [required_fields_found],
      [require_valid_inputs], [optional_fields_found], [APIGException], and
      [handler] with its [wrapper], as statements over the state of one
      invocation.
    - [Json]: JSON text, written by [json_dumps] and read back by [loads].
    - [Examples]: sample invocations.
    - [PyFacts], [JsonFacts], [ApigatewayFacts], [ExamplesFacts]: the
      properties.
    - [WrapperFacts], [ValidatorFacts], [BehaviourExamples]: further
      behaviour of the decorator and of the validators. *)

From Stdlib Require Import ZArith String Ascii List Bool Lia.
From Stdlib Require Import DecimalString DecimalZ.
From stdpp Require Import base gmap sets list strings.

Local Open Scope Z_scope.

(** ** Python values *)

Module Py.

(** The values a handler exchanges with API Gateway: what the decorator's
    docstring lists ("a list, dict, string, number or boolean"), [None], and
    the tuple, which a handler may return as well and which is written to
    JSON like a list.  Numbers are the integers; a [str] is a [string] whose
    characters are the code points below 256; a [dict] has [str] keys and
    keeps insertion order, so it is an association list without repeated
    keys.  Floats and dictionaries with other keys are left out. *)
#[local] Unset Elimination Schemes.
Inductive pyval : Type :=
| VNone
| VBool (b : bool)
| VInt (n : Z)
| VStr (s : string)
| VList (l : list pyval)
| VDict (d : list (string * pyval))
| VTuple (l : list pyval).
#[local] Set Elimination Schemes.

Abbreviation pydict := (list (string * pyval)).

(** [d[k]] as a lookup, [d[k] = v], [del d[k]] and [d.keys()]. *)
Fixpoint dict_get (k : string) (d : pydict) : option pyval :=
  match d with
  | [] => None
  | (k', v) :: d' => if decide (k = k') then Some v else dict_get k d'
  end.

Fixpoint dict_set (k : string) (v : pyval) (d : pydict) : pydict :=
  match d with
  | [] => [(k, v)]
  | (k', v') :: d' =>
      if decide (k = k') then (k', v) :: d' else (k', v') :: dict_set k v d'
  end.

Fixpoint dict_del (k : string) (d : pydict) : pydict :=
  match d with
  | [] => []
  | (k', v') :: d' =>
      if decide (k = k') then d' else (k', v') :: dict_del k d'
  end.

Definition dict_keys (d : pydict) : list string := map fst d.


(** [type(v).__name__] *)
Definition type_name (v : pyval) : string :=
  match v with
  | VNone => "NoneType"
  | VBool _ => "bool"
  | VInt _ => "int"
  | VStr _ => "str"
  | VList _ => "list"
  | VDict _ => "dict"
  | VTuple _ => "tuple"
  end.

(** Truth value testing, as [if x:] does it. *)
Definition truthy (v : pyval) : bool :=
  match v with
  | VNone => false
  | VBool b => b
  | VInt n => negb (n =? 0)
  | VStr s => negb (String.eqb s "")
  | VList l => match l with [] => false | _ => true end
  | VDict d => match d with [] => false | _ => true end
  | VTuple l => match l with [] => false | _ => true end
  end.

(** *** [repr] and [str] *)

Definition str_of_int (n : Z) : string := NilZero.string_of_int (Z.to_int n).

Definition hex_digit (n : nat) : ascii :=
  ascii_of_nat (if Nat.ltb n 10 then 48 + n else 87 + n).

Definition contains (c : ascii) (s : string) : bool :=
  existsb (fun x => bool_decide (x = c)) (list_ascii_of_string s).

Definition dquote : ascii := "034"%char.

(** [repr] of a [str]: single quotes unless the text has a single quote and
    no double quote; the quote and the backslash are escaped, tab, newline
    and carriage return are written [\t], [\n], [\r], and the characters
    that are not printable as [\xNN]. *)
Definition repr_quote (s : string) : ascii :=
  if contains "'" s && negb (contains dquote s) then dquote else "'"%char.

Definition printable (n : nat) : bool :=
  (Nat.leb 32 n && Nat.ltb n 127) || (Nat.leb 161 n && negb (Nat.eqb n 173)).

Definition repr_char (q c : ascii) : string :=
  let n := nat_of_ascii c in
  if bool_decide (c = q) || bool_decide (c = "\"%char) then
    String "\" (String c "")
  else if Nat.eqb n 9 then "\t"
  else if Nat.eqb n 10 then "\n"
  else if Nat.eqb n 13 then "\r"
  else if printable n then String c ""
  else String "\" (String "x"
         (String (hex_digit (Nat.div n 16)) (String (hex_digit (Nat.modulo n 16)) ""))).

Fixpoint repr_chars (q : ascii) (s : string) : string :=
  match s with
  | EmptyString => ""
  | String c s' => repr_char q c +:+ repr_chars q s'
  end.

Definition repr_str (s : string) : string :=
  let q := repr_quote s in
  String q (repr_chars q s +:+ String q "").

(** [sep.join(parts)] *)
Fixpoint join (sep : string) (parts : list string) : string :=
  match parts with
  | [] => ""
  | [p] => p
  | p :: ps => p +:+ sep +:+ join sep ps
  end.

Fixpoint repr (v : pyval) : string :=
  match v with
  | VNone => "None"
  | VBool true => "True"
  | VBool false => "False"
  | VInt n => str_of_int n
  | VStr s => repr_str s
  | VList l => "[" +:+ join ", " (map repr l) +:+ "]"
  | VDict d =>
      "{" +:+ join ", " (map (fun kv => repr_str (fst kv) +:+ ": " +:+ repr (snd kv)) d)
          +:+ "}"
  | VTuple l =>
      match l with
      | [x] => "(" +:+ repr x +:+ ",)"
      | _ => "(" +:+ join ", " (map repr l) +:+ ")"
      end
  end.

Definition str (v : pyval) : string :=
  match v with
  | VStr s => s
  | _ => repr v
  end.

End Py.

(** ** The module [tlx.apigateway] *)

Module Apigateway.
Import Py.

(** *** Exceptions and results *)

(** The exceptions that can travel through the decorator.  [APIGException]
    is the module's own class: an [Exception] with a [code] attribute.
    [JSONDecodeError] is [json.decoder.JSONDecodeError].  [Exception arg] is
    a plain [Exception(arg)], as [raise Exception(e)] builds it.
    [OtherException] stands for any further class derived from [Exception],
    [NotAnException] for the classes derived from [BaseException] alone
    ([KeyboardInterrupt], [SystemExit]), which [except Exception] lets
    through. *)
Inductive exn : Type :=
| APIGException (message : string) (code : pyval)
| JSONDecodeError (msg : string)
| KeyError (key : string)
| IndexError (msg : string)
| TypeError (msg : string)
| AttributeError (msg : string)
| OtherException (cls msg : string)
| NotAnException (cls msg : string)
| Exception (arg : exn).

(** [APIGException.__init__(self, message, code=500)] *)
Definition APIGException__init__ (message : string) (code : option pyval) : exn :=
  APIGException message (default (VInt 500) code).

(** [e.code] of an [APIGException] *)
Definition exn_code (e : exn) : pyval :=
  match e with
  | APIGException _ code => code
  | _ => VNone
  end.

(** [str(e)] *)
Fixpoint exn_str (e : exn) : string :=
  match e with
  | APIGException message _ => message
  | JSONDecodeError msg => msg
  | KeyError key => repr_str key
  | IndexError msg => msg
  | TypeError msg => msg
  | AttributeError msg => msg
  | OtherException _ msg => msg
  | NotAnException _ msg => msg
  | Exception arg => exn_str arg
  end.

(** [isinstance(e, Exception)] *)
Definition is_Exception (e : exn) : bool :=
  match e with
  | NotAnException _ _ => false
  | _ => true
  end.

Inductive result (A : Type) : Type :=
| Returns (a : A)
| Raises (e : exn).
Arguments Returns {A} a.
Arguments Raises {A} e.

#[export] Instance result_ret : MRet result := λ A a, Returns a.
#[export] Instance result_bind : MBind result := λ A B k r,
  match r with
  | Returns a => k a
  | Raises e => Raises e
  end.

(** *** Input validators *)

(** [if supplied:] for a mapping that may be [None] *)
Definition present (m : option pydict) : bool :=
  match m with
  | Some d => truthy (VDict d)
  | None => false
  end.

(** The names a [set] method sees when it iterates over the mapping: its keys. *)
Definition iter_keys (m : option pydict) : gset string :=
  match m with
  | Some d => list_to_set (dict_keys d)
  | None => ∅
  end.

Definition required_fields_found (supplied : option pydict) (required : gset string) : bool :=
  if present supplied then
    bool_decide (required ∩ iter_keys supplied = required)
  else false.

(** [supplied.keys()]: [None] has no such attribute. *)
Definition keys_of (supplied : option pydict) : result (list string) :=
  match supplied with
  | Some d => Returns (dict_keys d)
  | None => Raises (AttributeError "'NoneType' object has no attribute 'keys'")
  end.

Definition require_valid_inputs (supplied : option pydict) (required : gset string)
  : result unit :=
  if negb (required_fields_found supplied required) then
    match keys_of supplied with
    | Returns ks =>
        let msg := "Invalid input parameters: " +:+ str (VList (map VStr ks)) in
        Raises (APIGException__init__ msg (Some (VInt 400)))
    | Raises e => Raises e
    end
  else Returns tt.

(** The result of [optional_fields_found]: a [set], or [False]. *)
Inductive fields_found : Type :=
| FoundSet (s : gset string)
| FoundFalse.

Definition optional_fields_found (params : option pydict) (fields : gset string)
  : fields_found :=
  if present params then FoundSet (fields ∩ iter_keys params) else FoundFalse.

(** *** Subscripting *)

(** [o[k]], [o[k] = v] (the updated object) and [del o[k]] (the updated
    object) for a [str] key [k].  Only a dictionary takes such a key. *)
Definition not_a_mapping (o : pyval) (what : string) : exn :=
  match o with
  | VStr _ => TypeError "string indices must be integers, not 'str'"
  | VList _ => TypeError "list indices must be integers or slices, not str"
  | _ => TypeError ("'" +:+ type_name o +:+ "' object " +:+ what)
  end.

Definition getitem (o : pyval) (k : string) : result pyval :=
  match o with
  | VDict d =>
      match dict_get k d with
      | Some v => Returns v
      | None => Raises (KeyError k)
      end
  | VTuple _ => Raises (TypeError "tuple indices must be integers or slices, not str")
  | _ => Raises (not_a_mapping o "is not subscriptable")
  end.

Definition setitem (o : pyval) (k : string) (v : pyval) : result pyval :=
  match o with
  | VDict d => Returns (VDict (dict_set k v d))
  | VStr _ => Raises (TypeError "'str' object does not support item assignment")
  | _ => Raises (not_a_mapping o "does not support item assignment")
  end.

Definition delitem (o : pyval) (k : string) : result pyval :=
  match o with
  | VDict d =>
      match dict_get k d with
      | Some _ => Returns (VDict (dict_del k d))
      | None => Raises (KeyError k)
      end
  | VStr _ => Raises (TypeError "'str' object doesn't support item deletion")
  | _ => Raises (not_a_mapping o "doesn't support item deletion")
  end.

(** *** State of one invocation *)

Inductive level : Type := INFO | DEBUG | ERROR.

(** What an invocation of the wrapper reads and writes: its local variable
    [response], the records handed to the module's [logger] (whatever the
    logger's level lets through), and the calls made to the decorated
    function, kept to tell whether it was invoked. *)
Record state : Type := {
  response : pyval;
  log : list (level * string);
  calls : list (pyval * pyval)
}.

Inductive outcome (A : Type) : Type :=
| Done (a : A) (s : state)
| Raised (e : exn) (s : state).
Arguments Done {A} a s.
Arguments Raised {A} e s.

(** Statements: they run from a state and either complete or raise. *)
Definition M (A : Type) : Type := state → outcome A.

#[export] Instance M_ret : MRet M := λ A a s, Done a s.
#[export] Instance M_bind : MBind M := λ A B k m s,
  match m s with
  | Done a s' => k a s'
  | Raised e s' => Raised e s'
  end.

Definition raise {A} (e : exn) : M A := λ s, Raised e s.

Definition lift {A} (r : result A) : M A :=
  match r with
  | Returns a => mret a
  | Raises e => raise e
  end.

Definition get_response : M pyval := λ s, Done (response s) s.

Definition set_response (r : pyval) : M unit := λ s,
  Done tt {| response := r; log := log s; calls := calls s |}.

Definition logger (lvl : level) (msg : string) : M unit := λ s,
  Done tt {| response := response s; log := log s ++ [(lvl, msg)]; calls := calls s |}.

(** [try: body except ...]: [clauses e] is the first clause that matches [e],
    if one does. *)
Definition try_except {A} (body : M A) (clauses : exn → option (M A)) : M A := λ s,
  match body s with
  | Done a s' => Done a s'
  | Raised e s' =>
      match clauses e with
      | Some h => h s'
      | None => Raised e s'
      end
  end.

(** [response[k] = v] and [response[k1][k2] = v] *)
Definition assign (k : string) (v : pyval) : M unit :=
  r ← get_response; r' ← lift (setitem r k v); set_response r'.

Definition assign_in (k1 k2 : string) (v : pyval) : M unit :=
  r ← get_response; b ← lift (getitem r k1);
  b' ← lift (setitem b k2 v); r' ← lift (setitem r k1 b');
  set_response r'.

(** [del response[k1][k2]] *)
Definition del_in (k1 k2 : string) : M unit :=
  r ← get_response; b ← lift (getitem r k1);
  b' ← lift (delitem b k2); r' ← lift (setitem r k1 b');
  set_response r'.

(** *** The decorator *)

Section Handler.

(** [tlx.dynamodb.json_dumps] is imported, not defined here: the decorator is
    read for any such function. *)
Variable json_dumps : pyval → result string.

(** The decorated function. *)
Variable func : pyval → pyval → result pyval.

Definition default_response : pyval :=
  VDict [("statusCode", VInt 500);
         ("body", VDict [("message", VStr "Error saving data.  Check logs for more info.");
                         ("response", VDict [])])].

(** [code=None] when the caller leaves it out. *)
Definition setup_error_response (msg : string) (code : pyval) : M unit :=
  logger ERROR msg;;
  assign_in "body" "message" (VStr msg);;
  if truthy code then assign "statusCode" code else mret tt.

(** [axgs[i]] *)
Definition arg (axgs : list pyval) (i : nat) : result pyval :=
  match axgs !! i with
  | Some v => Returns v
  | None => Raises (IndexError "tuple index out of range")
  end.

(** The keyword argument a replacement field names. *)
Definition field (kwargs : pydict) (name : string) : result pyval :=
  match dict_get name kwargs with
  | Some v => Returns v
  | None => Raises (KeyError name)
  end.

(** The text of the debug record: the format string filled from the keyword
    arguments [event] unpacks to, its fields looked up in the order
    [resource], [queryStringParameters], [body]. *)
Definition format_received (event : pyval) : result string :=
  match event with
  | VDict kwargs =>
      resource ← field kwargs "resource";
      params ← field kwargs "queryStringParameters";
      body ← field kwargs "body";
      mret ("Received '" +:+ str resource +:+ "' request with params: "
            +:+ str params +:+ " and body: " +:+ str body)
  | _ => Raises (TypeError ("str.format() argument after ** must be a mapping, not "
                            +:+ type_name event))
  end.

(** [func(event, context)] *)
Definition call (event context : pyval) : M pyval := λ s,
  lift (func event context)
       {| response := response s; log := log s;
          calls := calls s ++ [(event, context)] |}.

Definition try_body (axgs : list pyval) : M unit :=
  event ← lift (arg axgs 0);
  context ← lift (arg axgs 1);
  dumped ← lift (json_dumps event);
  logger INFO ("event: " +:+ dumped);;
  received ← lift (format_received event);
  logger DEBUG received;;
  assign "statusCode" (VStr "200");;
  assign_in "body" "message" (VStr "Success");;
  v ← call event context;
  assign_in "body" "response" v.

Definition except_clauses (e : exn) : option (M unit) :=
  match e with
  | APIGException _ _ =>
      Some (setup_error_response ("Error: " +:+ exn_str e) (exn_code e))
  | JSONDecodeError _ =>
      Some (setup_error_response "Input data is not JSON" VNone)
  | _ =>
      if is_Exception e then
        Some (raise (A:=unit) (Exception e);;
              setup_error_response ("Error: " +:+ exn_str e) VNone)
      else None
  end.

Definition is_None (v : pyval) : bool :=
  match v with
  | VNone => true
  | _ => false
  end.

Definition wrapper (axgs : list pyval) : M pyval :=
  set_response default_response;;
  try_except (try_body axgs) except_clauses;;
  r ← get_response; b ← lift (getitem r "body"); v ← lift (getitem b "response");
  (if is_None v then del_in "body" "response" else mret tt);;
  r ← get_response; b ← lift (getitem r "body");
  dumped ← lift (json_dumps b);
  assign "body" (VStr dumped);;
  r ← get_response;
  logger INFO ("Returning repsonse: " +:+ str r);;
  mret r.

End Handler.

(** [handler(func)] is the wrapper around [func]. *)
Definition handler (json_dumps : pyval → result string)
    (func : pyval → pyval → result pyval) : list pyval → M pyval :=
  wrapper json_dumps func.

End Apigateway.

(** ** JSON text *)

Module Json.
Import Py Apigateway.

Definition hex2 (n : nat) : string :=
  String (hex_digit (Nat.div n 16)) (String (hex_digit (Nat.modulo n 16)) "").

(** How a character is written inside a JSON string: the quote and the
    backslash escaped, the short escapes for backspace, tab, newline, form
    feed and carriage return, the characters from the space to the tilde as
    they are, and every other one as [\u00XX]. *)
Definition escape_char (c : ascii) : string :=
  let n := nat_of_ascii c in
  if bool_decide (c = dquote) then String "\" (String dquote "")
  else if bool_decide (c = "\"%char) then "\\"
  else if Nat.eqb n 8 then "\b"
  else if Nat.eqb n 9 then "\t"
  else if Nat.eqb n 10 then "\n"
  else if Nat.eqb n 12 then "\f"
  else if Nat.eqb n 13 then "\r"
  else if Nat.leb 32 n && Nat.ltb n 127 then String c ""
  else "\u00" +:+ hex2 n.

Fixpoint escape (s : string) : string :=
  match s with
  | EmptyString => ""
  | String c s' => escape_char c +:+ escape s'
  end.

Definition encode_str (s : string) : string :=
  String dquote (escape s +:+ String dquote "").

(** The JSON text of a value: items separated by a comma and a space, a key
    and its value by a colon and a space.  A tuple is written as a list is:
    JSON has arrays only. *)
Fixpoint dumps (v : pyval) : string :=
  match v with
  | VNone => "null"
  | VBool true => "true"
  | VBool false => "false"
  | VInt n => str_of_int n
  | VStr s => encode_str s
  | VList l => "[" +:+ join ", " (map dumps l) +:+ "]"
  | VDict d =>
      "{" +:+ join ", " (map (λ kv, encode_str (fst kv) +:+ ": " +:+ dumps (snd kv)) d)
          +:+ "}"
  | VTuple l => "[" +:+ join ", " (map dumps l) +:+ "]"
  end.


(** Modelled from the spec: [tlx.dynamodb.json_dumps], imported by the module
    and not among its sources.  The spec has the body "serialized to a JSON
    string": the function returns the JSON text of its argument and raises on
    none of the values of [pyval]. *)
Definition json_dumps (v : pyval) : result string := Returns (dumps v).

(** *** Reading JSON text back: [json.loads] *)





















End Json.

(** ** Sample invocations *)

Module Examples.
Import Py Apigateway.

Definition event : pyval :=
  VDict [("resource", VStr "/items");
         ("queryStringParameters", VDict [("id", VStr "7")]);
         ("body", VNone)].

(** An event without [queryStringParameters] and [body]. *)
Definition bare_event : pyval := VDict [("resource", VStr "/items")].

Definition context : pyval := VNone.

Definition item : pyval :=
  VDict [("id", VInt 7); ("tags", VList [VStr "new"; VStr "sale"]); ("stock", VInt (-1))].


(** The state before the first invocation. *)
Definition start : state := {| response := VNone; log := []; calls := [] |}.

(** Decorated functions that return, or raise, whatever the event. *)
Definition returning (v : pyval) : pyval → pyval → result pyval := λ _ _, Returns v.
Definition raising (e : exn) : pyval → pyval → result pyval := λ _ _, Raises e.

(** An event without query parameters, as API Gateway sends it. *)
Definition plain_event : pyval :=
  VDict [("resource", VStr "/items"); ("queryStringParameters", VNone); ("body", VNone)].

(** The mapping a value stands for, [None] for anything else. *)
Definition as_mapping (v : pyval) : option pydict :=
  match v with
  | VDict d => Some d
  | _ => None
  end.

(** A decorated function that validates the query parameters first. *)
Definition validating (required : gset string) : pyval → pyval → result pyval :=
  λ event _,
    params ← getitem event "queryStringParameters";
    require_valid_inputs (as_mapping params) required;;
    Returns item.

(** How deep lists and dictionaries are nested in a value. *)
Fixpoint depth (v : pyval) : nat :=
  match v with
  | VList l => S (foldr (λ x, Nat.max (depth x)) 0%nat l)
  | VDict d => S (foldr (λ kv, Nat.max (depth (snd kv))) 0%nat d)
  | VTuple l => S (foldr (λ x, Nat.max (depth x)) 0%nat l)
  | _ => 0%nat
  end.

(** A [json_dumps] that gives up on values nested deeper than [limit]. *)
Definition bounded_dumps (limit : nat) (v : pyval) : result string :=
  if Nat.leb (depth v) limit then Returns (Json.dumps v)
  else Raises (OtherException "RecursionError"
                 "maximum recursion depth exceeded while encoding a JSON object").

End Examples.

(** * Properties *)

(** ** Python values *)

Module PyFacts.
Import Py.







End PyFacts.

(** ** JSON text *)

Module JsonFacts.
Import Py Apigateway Json PyFacts.

(** *** Strings *)



(** *** Integers *)










(** *** Values *)























(** *** Fuel *)




End JsonFacts.

(** ** The module [tlx.apigateway] *)


Module ApigatewayFacts.
Import Py Apigateway.

(** ** Dictionaries *)

Lemma dict_get_Some_keys (d : pydict) k : is_Some (dict_get k d) ↔ k ∈ dict_keys d.
Proof.
  induction d as [|[k' v] d IH]; simpl.
  - split; [intros [? ?]; discriminate | intros H; inversion H].
  - destruct (decide (k = k')) as [->|Hne].
    + split; [intros _; left | intros _; eauto].
    + rewrite IH. split; [intros H; by right | intros H].
      apply elem_of_cons in H as [?|?]; [done | assumption].
Qed.

(** ** Input validators *)

Lemma present_Some (d : pydict) : present (Some d) = true ↔ d ≠ [].
Proof. destruct d; simpl; split; intros; congruence. Qed.

Lemma elem_of_iter_keys (d : pydict) k : k ∈ iter_keys (Some d) ↔ k ∈ dict_keys d.
Proof. unfold iter_keys. apply elem_of_list_to_set. Qed.

(** C6. [required_fields_found supplied required] is true exactly when
    [supplied] is a mapping, is not empty, and has every name of [required]
    among its keys; further keys do no harm, [None] and the empty mapping
    give false. *)
Theorem required_fields_found_iff (supplied : option pydict) (required : gset string) :
  required_fields_found supplied required = true
  ↔ ∃ d, supplied = Some d ∧ d ≠ [] ∧ ∀ k, k ∈ required → k ∈ dict_keys d.
Proof.
  unfold required_fields_found. destruct supplied as [d|].
  - destruct (present (Some d)) eqn:Hp.
    + apply present_Some in Hp. rewrite bool_decide_eq_true. split.
      * intros Heq. exists d. split_and!; [done | done |].
        intros k Hk. apply elem_of_iter_keys. rewrite <- Heq in Hk.
        by apply elem_of_intersection in Hk as [_ ?].
      * intros (d' & ? & _ & Hall). simplify_eq. apply set_eq. intros k.
        rewrite elem_of_intersection, elem_of_iter_keys.
        split; [by intros [? _] | intros Hk; split; [done | by apply Hall]].
    + split; [done |]. intros (d' & ? & Hne & _). simplify_eq.
      apply present_Some in Hne. congruence.
  - split; [done | intros (d' & Hd & _); discriminate].
Qed.

(** For a mapping, the validator raises [APIGException] with code 400 and the
    list of the supplied keys exactly when a required field is missing. *)
Lemma require_valid_inputs_mapping (d : pydict) (required : gset string) :
  require_valid_inputs (Some d) required =
    if required_fields_found (Some d) required then Returns tt
    else Raises (APIGException
                   ("Invalid input parameters: " +:+ str (VList (map VStr (dict_keys d))))
                   (VInt 400)).
Proof. unfold require_valid_inputs. by destruct (required_fields_found _ _). Qed.

(** C7, where the code departs from it: with [supplied = None] the required
    fields are not found, and building the message fails on [None.keys()], so
    the exception is an [AttributeError], not an [APIGException] with
    code 400. *)
Theorem require_valid_inputs_None :
  required_fields_found None {["a"]} = false ∧
  require_valid_inputs None {["a"]}
  = Raises (AttributeError "'NoneType' object has no attribute 'keys'").
Proof. split; reflexivity. Qed.

(** C8. For a mapping that is not empty, [optional_fields_found params fields]
    is the set of the names of [fields] that are keys of [params]; for [None]
    and for the empty mapping it is [False]. *)
Theorem optional_fields_found_spec (fields : gset string) :
  (∀ d : pydict, d ≠ [] →
     ∃ s, optional_fields_found (Some d) fields = FoundSet s
          ∧ ∀ k, k ∈ s ↔ k ∈ fields ∧ k ∈ dict_keys d)
  ∧ optional_fields_found None fields = FoundFalse
  ∧ optional_fields_found (Some []) fields = FoundFalse.
Proof.
  split_and!; [| reflexivity | reflexivity].
  intros d Hd. unfold optional_fields_found.
  apply present_Some in Hd as ->. eexists. split; [reflexivity |].
  intros k. by rewrite elem_of_intersection, elem_of_iter_keys.
Qed.

(** ** The decorator *)

Section Handler.

Variable json_dumps : pyval → result string.
Variable func : pyval → pyval → result pyval.

(** The debug record can be formatted exactly when the event is a mapping
    with the three fields it names. *)
Lemma format_received_Returns (event : pyval) :
  (∃ text, format_received event = Returns text)
  ↔ ∃ kw, event = VDict kw ∧ is_Some (dict_get "resource" kw)
          ∧ is_Some (dict_get "queryStringParameters" kw)
          ∧ is_Some (dict_get "body" kw).
Proof.
  split.
  - intros [text H]. destruct event; try discriminate. exists d. split; [done |].
    unfold format_received, field in H.
    destruct (dict_get "resource" d); [| discriminate].
    destruct (dict_get "queryStringParameters" d); [| discriminate].
    destruct (dict_get "body" d); [| discriminate]. eauto.
  - intros (kw & -> & [r Hr] & [q Hq] & [b Hb]).
    unfold format_received, field. rewrite Hr, Hq, Hb. eauto.
Qed.

(** The state in which the decorated function is called. *)
Lemma try_body_reaches_call axgs event context dumped received s0 :
  axgs !! 0%nat = Some event → axgs !! 1%nat = Some context →
  json_dumps event = Returns dumped →
  format_received event = Returns received →
  try_body json_dumps func axgs
    {| response := default_response; log := log s0; calls := calls s0 |}
  = (v ← lift (func event context); assign_in "body" "response" v)
      {| response :=
           VDict [("statusCode", VStr "200");
                  ("body", VDict [("message", VStr "Success"); ("response", VDict [])])];
         log := log s0 ++ [(INFO, "event: " +:+ dumped); (DEBUG, received)];
         calls := calls s0 ++ [(event, context)] |}.
Proof.
  intros H0 H1 Hd Hf. unfold try_body, arg. rewrite H0, H1. simpl.
  unfold mbind, M_bind. simpl. rewrite Hd. simpl. rewrite Hf. simpl.
  by rewrite <- app_assoc.
Qed.

(** What C1 says of the body holds for every success, and the [statusCode]
    the code gives is the text ["200"]: when the decorated function returns
    [v], the wrapper returns the envelope with that [statusCode] and with
    [json_dumps] of the mapping with [message] ["Success"] and, unless [v] is
    [None], [response] equal to [v]. *)
Theorem wrapper_success axgs event context dumped received v text s0 :
  axgs !! 0%nat = Some event → axgs !! 1%nat = Some context →
  json_dumps event = Returns dumped →
  format_received event = Returns received →
  func event context = Returns v →
  json_dumps (VDict (("message", VStr "Success")
                       :: if is_None v then [] else [("response", v)]))
    = Returns text →
  ∃ s1, wrapper json_dumps func axgs s0
        = Done (VDict [("statusCode", VStr "200"); ("body", VStr text)]) s1.
Proof.
  intros H0 H1 Hd Hf Hv Ht. unfold wrapper.
  unfold mbind at 1, M_bind at 1. simpl.
  unfold mbind at 1, M_bind at 1. unfold try_except.
  erewrite try_body_reaches_call by eassumption.
  rewrite Hv. simpl.
  unfold mbind, M_bind; simpl.
  destruct v; simpl in *; rewrite Ht; simpl; eauto.
Qed.

(** C2, as the code has it: when the decorated function raises
    [APIGException] with message [m] and a code [c] that is truthy (500 when
    the code is left out), the wrapper returns the envelope whose [statusCode]
    is [c] and whose body has the message ["Error: "] followed by [m]. *)
Theorem wrapper_APIGException axgs event context dumped received m code text s0 :
  axgs !! 0%nat = Some event → axgs !! 1%nat = Some context →
  json_dumps event = Returns dumped →
  format_received event = Returns received →
  func event context = Raises (APIGException__init__ m code) →
  truthy (default (VInt 500) code) = true →
  json_dumps (VDict [("message", VStr ("Error: " +:+ m)); ("response", VDict [])])
    = Returns text →
  ∃ s1, wrapper json_dumps func axgs s0
        = Done (VDict [("statusCode", default (VInt 500) code); ("body", VStr text)]) s1.
Proof.
  intros H0 H1 Hd Hf Hv Hc Ht. unfold wrapper.
  unfold mbind at 1, M_bind at 1. simpl.
  unfold mbind at 1, M_bind at 1. unfold try_except.
  erewrite try_body_reaches_call by eassumption.
  rewrite Hv. simpl. unfold setup_error_response.
  unfold mbind, M_bind; simpl. rewrite Hc. simpl. rewrite Ht. simpl. eauto.
Qed.

(** The last statement of the generic clause never runs: the clause is the
    bare [raise]. *)
Lemma except_clauses_generic (e : exn) :
  (∀ m c, e ≠ APIGException m c) → (∀ m, e ≠ JSONDecodeError m) →
  except_clauses e = if is_Exception e then Some (raise (Exception e)) else None.
Proof. intros Ha Hj. destruct e; try reflexivity; [by destruct (Ha message code) | by destruct (Hj msg)]. Qed.

(** C3. When the decorated function raises an exception that is neither an
    [APIGException] nor a [JSONDecodeError], the wrapper raises: it wraps the
    exception in a plain [Exception] (one that [except Exception] does not
    catch passes as it is).  No envelope is returned, and the statement after
    the [raise] never runs: no error record is logged and the body's message
    is left as it was. *)
Theorem wrapper_reraises axgs event context dumped received e s0 :
  axgs !! 0%nat = Some event → axgs !! 1%nat = Some context →
  json_dumps event = Returns dumped →
  format_received event = Returns received →
  func event context = Raises e →
  (∀ m c, e ≠ APIGException m c) → (∀ m, e ≠ JSONDecodeError m) →
  wrapper json_dumps func axgs s0
  = Raised (if is_Exception e then Exception e else e)
      {| response :=
           VDict [("statusCode", VStr "200");
                  ("body", VDict [("message", VStr "Success"); ("response", VDict [])])];
         log := log s0 ++ [(INFO, "event: " +:+ dumped); (DEBUG, received)];
         calls := calls s0 ++ [(event, context)] |}.
Proof.
  intros H0 H1 Hd Hf Hv Ha Hj. unfold wrapper.
  unfold mbind at 1, M_bind at 1. simpl.
  unfold mbind at 1, M_bind at 1. unfold try_except.
  erewrite try_body_reaches_call by eassumption.
  rewrite Hv. simpl. rewrite except_clauses_generic by assumption.
  by destruct (is_Exception e).
Qed.

(** C4. When the decorated function raises a [JSONDecodeError], the wrapper
    returns an envelope whose body has the message ["Input data is not JSON"];
    its [statusCode] is the one the response had when the exception arrived,
    which is the ["200"] assigned before the call. *)
Theorem wrapper_JSONDecodeError axgs event context dumped received msg text s0 :
  axgs !! 0%nat = Some event → axgs !! 1%nat = Some context →
  json_dumps event = Returns dumped →
  format_received event = Returns received →
  func event context = Raises (JSONDecodeError msg) →
  json_dumps (VDict [("message", VStr "Input data is not JSON"); ("response", VDict [])])
    = Returns text →
  ∃ prior s s1,
    try_body json_dumps func axgs
      {| response := default_response; log := log s0; calls := calls s0 |}
    = Raised (JSONDecodeError msg) s
    ∧ getitem (response s) "statusCode" = Returns prior
    ∧ prior = VStr "200"
    ∧ wrapper json_dumps func axgs s0
      = Done (VDict [("statusCode", prior); ("body", VStr text)]) s1.
Proof.
  intros H0 H1 Hd Hf Hv Ht. unfold wrapper.
  unfold mbind at 1, M_bind at 1. simpl.
  unfold mbind at 1, M_bind at 1. unfold try_except.
  erewrite try_body_reaches_call by eassumption.
  rewrite Hv. simpl. unfold setup_error_response.
  unfold mbind, M_bind; simpl. rewrite Ht. simpl.
  eexists _, _, _. split_and!; reflexivity.
Qed.

(** C10. When the event is a mapping that lacks one of [resource],
    [queryStringParameters], [body], formatting the debug record raises
    [KeyError]; the wrapper raises it wrapped in an [Exception], returns no
    envelope, and the decorated function has not been called. *)
Theorem wrapper_missing_field axgs kw context dumped s0 :
  axgs !! 0%nat = Some (VDict kw) → axgs !! 1%nat = Some context →
  json_dumps (VDict kw) = Returns dumped →
  dict_get "resource" kw = None ∨ dict_get "queryStringParameters" kw = None
    ∨ dict_get "body" kw = None →
  ∃ k s1, wrapper json_dumps func axgs s0 = Raised (Exception (KeyError k)) s1
          ∧ k ∈ ["resource"; "queryStringParameters"; "body"]
          ∧ dict_get k kw = None
          ∧ calls s1 = calls s0.
Proof.
  intros H0 H1 Hd Hk.
  assert (∃ k, format_received (VDict kw) = Raises (KeyError k)
               ∧ k ∈ ["resource"; "queryStringParameters"; "body"]
               ∧ dict_get k kw = None) as (k & Hf & Hin & Hnone).
  { unfold format_received, field.
    destruct (dict_get "resource" kw) eqn:Hr;
      [| exists "resource"; split_and!; [done | by rewrite !elem_of_cons; auto | done]].
    destruct (dict_get "queryStringParameters" kw) eqn:Hq;
      [| exists "queryStringParameters"; split_and!; [done | by rewrite !elem_of_cons; auto | done]].
    destruct (dict_get "body" kw) eqn:Hb;
      [| exists "body"; split_and!; [done | by rewrite !elem_of_cons; auto | done]].
    by destruct Hk as [?|[?|?]]. }
  exists k. unfold wrapper.
  unfold mbind at 1, M_bind at 1. simpl.
  unfold mbind at 1, M_bind at 1. unfold try_except, try_body, arg.
  rewrite H0, H1. unfold lift, logger, raise, mbind, M_bind, mret, M_ret.
  cbv beta iota. rewrite Hd. cbv beta iota. rewrite Hf. simpl. eauto.
Qed.

(** *** The shape of every envelope *)

Ltac step := unfold lift, logger, raise, mbind, M_bind, mret, M_ret; cbv beta iota.

(** Formatting the debug record fails with [KeyError] or [TypeError] only. *)
Lemma format_received_Raises event e :
  format_received event = Raises e → (∃ k, e = KeyError k) ∨ (∃ m, e = TypeError m).
Proof.
  unfold format_received, field. destruct event; try (intros [= <-]; eauto).
  destruct (dict_get "resource" d); [| intros [= <-]; eauto]. simpl.
  destruct (dict_get "queryStringParameters" d); [| intros [= <-]; eauto]. simpl.
  destruct (dict_get "body" d); [| intros [= <-]; eauto]. discriminate.
Qed.

(** An [except] clause that completes leaves the response in its shape, with
    the [response] entry and the record of calls untouched. *)
Lemma except_clauses_Done e h s sc m v u s' :
  response s = VDict [("statusCode", sc); ("body", VDict [("message", VStr m); ("response", v)])] →
  except_clauses e = Some h → h s = Done u s' →
  ∃ sc' m',
    response s' = VDict [("statusCode", sc'); ("body", VDict [("message", VStr m'); ("response", v)])]
    ∧ calls s' = calls s
    ∧ ((∃ m c, e = APIGException m c) ∨ (∃ m, e = JSONDecodeError m)).
Proof.
  intros Hs He Hh. destruct s as [r l c]. simpl in Hs. subst r.
  destruct e; simpl in He; simplify_eq; try discriminate.
  - unfold setup_error_response, assign_in, assign, get_response, set_response in Hh.
    revert Hh. step. simpl. destruct (truthy code); simpl; intros [= <- <-]; simpl; eauto 10.
  - unfold setup_error_response, assign_in, assign, get_response, set_response in Hh.
    revert Hh. step. simpl. intros [= <- <-]; simpl; eauto 10.
Qed.

(** The state a completed [try] statement leaves: the response has its two
    entries and the body its two entries, and the [response] entry is [None]
    exactly when the decorated function was called and returned [None]. *)
Lemma try_except_Done axgs s0 u s' :
  try_except (try_body json_dumps func axgs) except_clauses
    {| response := default_response; log := log s0; calls := calls s0 |} = Done u s' →
  ∃ sc m v,
    response s' = VDict [("statusCode", sc); ("body", VDict [("message", VStr m); ("response", v)])]
    ∧ (v = VDict [] ∨ ∃ event context, func event context = Returns v)
    ∧ (v = VNone ↔ ∃ event context,
         calls s' = calls s0 ++ [(event, context)] ∧ func event context = Returns VNone).
Proof.
  unfold try_except.
  destruct (try_body _ _ _ _) as [u0 s1|e s1] eqn:Hbody.
  - (* the body completed: the function returned *)
    intros [= <- <-]. revert Hbody. unfold try_body, arg.
    destruct (axgs !! 0%nat) as [event|]; [| step; discriminate].
    destruct (axgs !! 1%nat) as [context|]; [| step; discriminate].
    step. destruct (json_dumps event); [| discriminate].
    destruct (format_received event); [| discriminate].
    unfold call, assign, assign_in, get_response, set_response. step. simpl.
    destruct (func event context) as [v|] eqn:Hv; [| discriminate].
    simpl. intros [= <- <-]. simpl. eexists _, _, _. split; [reflexivity |].
    split; [eauto |]. split.
    + intros ->. eauto.
    + intros (ev & ctx & Hc & Hn). apply app_inv_head in Hc. simplify_eq. congruence.
  - (* the body raised *)
    destruct (except_clauses e) as [h|] eqn:He; [| discriminate]. intros Hh.
    revert Hbody. unfold try_body, arg.
    destruct (axgs !! 0%nat) as [event|].
    2:{ step. intros [= <- <-]. simpl in He. simplify_eq; discriminate. }
    destruct (axgs !! 1%nat) as [context|].
    2:{ step. intros [= <- <-]. simpl in He. simplify_eq; discriminate. }
    step. destruct (json_dumps event) as [dumped|e1].
    2:{ intros [= <- <-].
        eapply except_clauses_Done in Hh as (sc' & m' & Hr & Hc & _);
      [| reflexivity | exact He].
        eexists _, _, _. split; [exact Hr |]. split; [by left |]. split; [discriminate |].
        intros (ev & ctx & Hc' & _). rewrite Hc in Hc'. simpl in Hc'.
        apply (f_equal length) in Hc'. rewrite length_app in Hc'. simpl in Hc'. lia. }
    destruct (format_received event) as [received|e1] eqn:Hf.
    2:{ intros [= <- <-]. exfalso.
        apply format_received_Raises in Hf as [[k ->]|[m ->]];
          simpl in He; simplify_eq; try discriminate. }
    unfold call, assign, assign_in, get_response, set_response. step. simpl.
    destruct (func event context) as [v|e1] eqn:Hv; [discriminate |].
    simpl. intros [= <- <-].
    eapply except_clauses_Done in Hh as (sc' & m' & Hr & Hc & _);
      [| reflexivity | exact He].
    eexists _, _, _. split; [exact Hr |]. split; [by left |]. split; [discriminate |].
    intros (ev & ctx & Hc' & Hn). rewrite Hc in Hc'. simpl in Hc'.
    apply app_inv_head in Hc'. simplify_eq. congruence.
Qed.

(** Every envelope the wrapper returns: a [statusCode], and the text
    [json_dumps] gives for the body, which holds the message and, unless it
    is [None], the response.  The response is the empty dictionary of the
    default or a value the decorated function returns. *)
Lemma wrapper_Done axgs s0 env s1 :
  wrapper json_dumps func axgs s0 = Done env s1 →
  ∃ sc m v text,
    env = VDict [("statusCode", sc); ("body", VStr text)]
    ∧ json_dumps (VDict (("message", VStr m) :: if is_None v then [] else [("response", v)]))
      = Returns text
    ∧ (v = VDict [] ∨ ∃ event context, func event context = Returns v)
    ∧ (v = VNone ↔ ∃ event context,
         calls s1 = calls s0 ++ [(event, context)] ∧ func event context = Returns VNone).
Proof.
  unfold wrapper. unfold mbind at 1, M_bind at 1. simpl.
  unfold mbind at 1, M_bind at 1.
  destruct (try_except _ _ _) as [u s'|e s'] eqn:Htry; [| discriminate].
  apply try_except_Done in Htry as (sc & m & v & Hr & Hfrom & Hv).
  destruct s' as [r l c]. simpl in Hr, Hv. subst r.
  unfold del_in, assign, get_response, set_response. step. simpl.
  destruct (is_None v) eqn:Hnone; simpl;
    (destruct (json_dumps _) as [text|] eqn:Ht; [| discriminate]);
    simpl; intros [= <- <-]; simpl; exists sc, m, v, text; rewrite Hnone; done.
Qed.

(** C5. Every envelope the wrapper returns has a [statusCode] and a body
    text, [json_dumps] of a mapping that always has the [message] key, and
    that has the [response] key unless the decorated function was called and
    returned [None]: the key is present only when the return value is not
    [None]. *)
Theorem wrapper_envelope_keys axgs s0 env s1 :
  wrapper json_dumps func axgs s0 = Done env s1 →
  ∃ sc body text,
    env = VDict [("statusCode", sc); ("body", VStr text)]
    ∧ json_dumps (VDict body) = Returns text
    ∧ is_Some (dict_get "message" body)
    ∧ (is_Some (dict_get "response" body)
       ↔ ¬ ∃ event context,
             calls s1 = calls s0 ++ [(event, context)]
             ∧ func event context = Returns VNone).
Proof.
  intros (sc & m & v & text & -> & Ht & _ & Hv)%wrapper_Done.
  eexists _, _, _. split_and!; [done | exact Ht | by eexists |].
  destruct (is_None v) eqn:Hnone; simpl.
  - destruct v; try discriminate.
    split; [intros [? ?]; discriminate |]. intros Hn. destruct Hn. by apply Hv.
  - split; [| by eexists]. intros _ Hn. apply Hv in Hn. by subst v.
Qed.

(** When the [try] statement raises, so does the wrapper. *)
Lemma wrapper_try_Raised axgs s0 e s' :
  try_except (try_body json_dumps func axgs) except_clauses
    {| response := default_response; log := log s0; calls := calls s0 |} = Raised e s' →
  wrapper json_dumps func axgs s0 = Raised e s'.
Proof.
  intros H. unfold wrapper. unfold mbind at 1, M_bind at 1. simpl.
  unfold mbind at 1, M_bind at 1. by rewrite H.
Qed.

(** When the [try] statement completes, the wrapper drops a [None] response,
    serializes the body, logs the envelope and returns it; an exception of
    [json_dumps] leaves the wrapper as it is. *)
Lemma wrapper_try_Done axgs s0 u s' sc m v :
  try_except (try_body json_dumps func axgs) except_clauses
    {| response := default_response; log := log s0; calls := calls s0 |} = Done u s' →
  response s' = VDict [("statusCode", sc);
                       ("body", VDict [("message", VStr m); ("response", v)])] →
  wrapper json_dumps func axgs s0 =
    let body := ("message", VStr m) :: if is_None v then [] else [("response", v)] in
    match json_dumps (VDict body) with
    | Returns text =>
        let env := VDict [("statusCode", sc); ("body", VStr text)] in
        Done env {| response := env;
                    log := log s' ++ [(INFO, "Returning repsonse: " +:+ str env)];
                    calls := calls s' |}
    | Raises e =>
        Raised e {| response := VDict [("statusCode", sc); ("body", VDict body)];
                    log := log s'; calls := calls s' |}
    end.
Proof.
  intros H Hr. unfold wrapper. unfold mbind at 1, M_bind at 1. simpl.
  unfold mbind at 1, M_bind at 1. rewrite H. destruct s' as [r l c]. simpl in Hr. subst r.
  unfold del_in, assign, get_response, set_response. step. simpl.
  destruct (is_None v) eqn:Hnone; simpl;
    destruct (json_dumps _) as [text|e]; reflexivity.
Qed.

End Handler.

(** ** The body of the envelope, read back *)


End ApigatewayFacts.

(** ** The properties on sample invocations *)

Module ExamplesFacts.
Import Py Apigateway Json Examples ApigatewayFacts.

Example required_fields_found_empty : required_fields_found (Some []) {["a"]} = false.
Proof. reflexivity. Qed.

Example required_fields_found_extra :
  required_fields_found (Some [("a", VInt 1); ("b", VInt 2)]) {["a"]} = true.
Proof. reflexivity. Qed.

Example required_fields_found_absent : required_fields_found None {["a"]} = false.
Proof. reflexivity. Qed.

Example require_valid_inputs_partial :
  require_valid_inputs (Some [("a", VInt 1)]) {["a"; "b"]}
  = Raises (APIGException "Invalid input parameters: ['a']" (VInt 400)).
Proof. reflexivity. Qed.

Example optional_fields_found_absent : optional_fields_found None {["x"]} = FoundFalse.
Proof. reflexivity. Qed.

(** [required_fields_found_iff] at a mapping with a further key. *)
Lemma required_fields_found_iff_witness :
  required_fields_found (Some [("a", VInt 1); ("b", VInt 2)]) {["a"]} = true.
Proof.
  apply (proj2 (required_fields_found_iff (Some [("a", VInt 1); ("b", VInt 2)]) {["a"]})).
  exists [("a", VInt 1); ("b", VInt 2)]. split; [reflexivity |]. split; [discriminate |].
  intros k Hk. apply elem_of_singleton in Hk as ->. left.
Defined.

(** [optional_fields_found_spec] at the mapping with the key [x] alone. *)
Lemma optional_fields_found_spec_witness :
  ∃ s, optional_fields_found (Some [("x", VInt 1)]) {["x"; "y"]} = FoundSet s
       ∧ ∀ k, k ∈ s ↔ k ∈ ({["x"; "y"]} : gset string) ∧ k ∈ dict_keys [("x", VInt 1)].
Proof.
  apply (proj1 (optional_fields_found_spec {["x"; "y"]}) [("x", VInt 1)]). discriminate.
Defined.

(** [wrapper_success] at a function that returns a dictionary. *)
Lemma wrapper_success_witness :
  ∃ s1, wrapper json_dumps (returning item) [event; context] start
        = Done (VDict [("statusCode", VStr "200");
                       ("body", VStr (dumps (VDict [("message", VStr "Success");
                                                    ("response", item)])))]) s1.
Proof.
  apply (wrapper_success json_dumps (returning item) [event; context] event context
           (dumps event)
           ("Received '/items' request with params: {'id': '7'} and body: None")
           item); reflexivity.
Defined.

(** C1, where the code departs from it: the [statusCode] of a success is the
    text ["200"], not the number 200, while every other status of the module
    (the default 500, the codes of [APIGException]) is a number. *)
Lemma wrapper_success_statusCode_is_text :
  ∃ env s1, wrapper json_dumps (returning item) [event; context] start = Done env s1
            ∧ getitem env "statusCode" = Returns (VStr "200")
            ∧ getitem env "statusCode" ≠ Returns (VInt 200).
Proof. eexists _, _. split_and!; [reflexivity | reflexivity | discriminate]. Qed.

(** [wrapper_APIGException] at the exception of the class's docstring. *)
Lemma wrapper_APIGException_witness :
  ∃ s1, wrapper json_dumps
          (raising (APIGException__init__ "Payment required" (Some (VInt 402))))
          [event; context] start
        = Done (VDict [("statusCode", VInt 402);
                       ("body", VStr (dumps (VDict [("message", VStr "Error: Payment required");
                                                    ("response", VDict [])])))]) s1.
Proof.
  apply (wrapper_APIGException json_dumps
           (raising (APIGException__init__ "Payment required" (Some (VInt 402))))
           [event; context] event context (dumps event)
           ("Received '/items' request with params: {'id': '7'} and body: None")
           "Payment required" (Some (VInt 402))); reflexivity.
Defined.

(** C2 as stated fails for the code 0: the [statusCode] stays the ["200"]
    assigned before the call. *)
Lemma wrapper_APIGException_code_zero :
  ∃ env s1, wrapper json_dumps
              (raising (APIGException__init__ "Payment required" (Some (VInt 0))))
              [event; context] start = Done env s1
            ∧ getitem env "statusCode" = Returns (VStr "200")
            ∧ getitem env "statusCode" ≠ Returns (VInt 0).
Proof. eexists _, _. split_and!; [reflexivity | reflexivity | discriminate]. Qed.

(** [wrapper_reraises] at a [KeyError] of the decorated function. *)
Lemma wrapper_reraises_witness :
  wrapper json_dumps (raising (KeyError "id")) [event; context] start
  = Raised (Exception (KeyError "id"))
      {| response :=
           VDict [("statusCode", VStr "200");
                  ("body", VDict [("message", VStr "Success"); ("response", VDict [])])];
         log := [(INFO, "event: " +:+ dumps event);
                 (DEBUG, "Received '/items' request with params: {'id': '7'} and body: None")];
         calls := [(event, context)] |}.
Proof.
  apply (wrapper_reraises json_dumps (raising (KeyError "id")) [event; context]
           event context (dumps event)
           ("Received '/items' request with params: {'id': '7'} and body: None")
           (KeyError "id") start); (reflexivity || discriminate).
Defined.

(** [wrapper_JSONDecodeError] at a function that fails to decode its input. *)
Lemma wrapper_JSONDecodeError_witness :
  ∃ prior s s1,
    try_body json_dumps (raising (JSONDecodeError "Expecting value")) [event; context]
      {| response := default_response; log := log start; calls := calls start |}
    = Raised (JSONDecodeError "Expecting value") s
    ∧ getitem (response s) "statusCode" = Returns prior
    ∧ prior = VStr "200"
    ∧ wrapper json_dumps (raising (JSONDecodeError "Expecting value")) [event; context] start
      = Done (VDict [("statusCode", prior);
                     ("body", VStr (dumps (VDict [("message", VStr "Input data is not JSON");
                                                  ("response", VDict [])])))]) s1.
Proof.
  apply (wrapper_JSONDecodeError json_dumps (raising (JSONDecodeError "Expecting value"))
           [event; context] event context (dumps event)
           ("Received '/items' request with params: {'id': '7'} and body: None")
           "Expecting value"); reflexivity.
Defined.

(** [wrapper_envelope_keys] at a function that returns [None]. *)
Lemma wrapper_envelope_keys_witness :
  ∃ sc body text,
    VDict [("statusCode", VStr "200");
           ("body", VStr (dumps (VDict [("message", VStr "Success")])))]
    = VDict [("statusCode", sc); ("body", VStr text)]
    ∧ json_dumps (VDict body) = Returns text
    ∧ is_Some (dict_get "message" body)
    ∧ (is_Some (dict_get "response" body)
       ↔ ¬ ∃ event' context',
             [(event, context)] = calls start ++ [(event', context')]
             ∧ returning VNone event' context' = Returns VNone).
Proof.
  apply (wrapper_envelope_keys json_dumps (returning VNone) [event; context] start
           (VDict [("statusCode", VStr "200");
                   ("body", VStr (dumps (VDict [("message", VStr "Success")])))])
           {| response :=
                VDict [("statusCode", VStr "200");
                       ("body", VStr (dumps (VDict [("message", VStr "Success")])))];
              log := [(INFO, "event: " +:+ dumps event);
                      (DEBUG, "Received '/items' request with params: {'id': '7'} and body: None");
                      (INFO, "Returning repsonse: "
                               +:+ str (VDict [("statusCode", VStr "200");
                                               ("body", VStr (dumps (VDict [("message", VStr "Success")])))]))];
              calls := [(event, context)] |}).
  reflexivity.
Defined.

(** [wrapper_missing_field] at an event with the [resource] field alone. *)
Lemma wrapper_missing_field_witness :
  ∃ k s1, wrapper json_dumps (returning item) [bare_event; context] start
          = Raised (Exception (KeyError k)) s1
          ∧ k ∈ ["resource"; "queryStringParameters"; "body"]
          ∧ dict_get k [("resource", VStr "/items")] = None
          ∧ calls s1 = calls start.
Proof.
  apply (wrapper_missing_field json_dumps (returning item) [bare_event; context]
           [("resource", VStr "/items")] context (dumps bare_event) start);
    [reflexivity | reflexivity | reflexivity | right; left; reflexivity].
Defined.



End ExamplesFacts.

(** * Further behaviour of the module *)

(** ** The decorator on every path *)

Module WrapperFacts.
Import Py Apigateway ApigatewayFacts.

Section Handler.

Variable json_dumps : pyval → result string.
Variable func : pyval → pyval → result pyval.

Ltac step := unfold lift, logger, raise, mbind, M_bind, mret, M_ret; cbv beta iota.

(** The [try] statement when the decorated function is reached. *)
Lemma try_except_call axgs event context dumped received s0 :
  axgs !! 0%nat = Some event → axgs !! 1%nat = Some context →
  json_dumps event = Returns dumped →
  format_received event = Returns received →
  try_except (try_body json_dumps func axgs) except_clauses
    {| response := default_response; log := log s0; calls := calls s0 |}
  = let reached (v : pyval) :=
      {| response :=
           VDict [("statusCode", VStr "200");
                  ("body", VDict [("message", VStr "Success"); ("response", v)])];
         log := log s0 ++ [(INFO, "event: " +:+ dumped); (DEBUG, received)];
         calls := calls s0 ++ [(event, context)] |} in
    match func event context with
    | Returns v => Done tt (reached v)
    | Raises e =>
        match except_clauses e with
        | Some h => h (reached (VDict []))
        | None => Raised e (reached (VDict []))
        end
    end.
Proof.
  intros H0 H1 Hd Hf. unfold try_except.
  erewrite try_body_reaches_call by eassumption.
  destruct (func event context); reflexivity.
Qed.

(** *** Before the decorated function is called *)

(** X1. With fewer than two positional arguments the wrapper raises an
    [Exception] around the [IndexError] of the tuple: nothing is logged, the
    decorated function is not called and no envelope is returned. *)
Theorem wrapper_too_few_arguments axgs s0 :
  (length axgs < 2)%nat →
  wrapper json_dumps func axgs s0
  = Raised (Exception (IndexError "tuple index out of range"))
      {| response := default_response; log := log s0; calls := calls s0 |}.
Proof.
  intros H. apply wrapper_try_Raised.
  destruct axgs as [|a [|b rest]]; [reflexivity | reflexivity | simpl in H; lia].
Qed.

(** X2. When [json_dumps] raises on the event an exception that is neither an
    [APIGException] nor a [JSONDecodeError], the wrapper raises it wrapped in
    an [Exception] (as it is when [except Exception] does not catch it),
    before anything is logged and without calling the decorated function. *)
Theorem wrapper_event_not_serializable axgs event context e s0 :
  axgs !! 0%nat = Some event → axgs !! 1%nat = Some context →
  json_dumps event = Raises e →
  (∀ m c, e ≠ APIGException m c) → (∀ m, e ≠ JSONDecodeError m) →
  wrapper json_dumps func axgs s0
  = Raised (if is_Exception e then Exception e else e)
      {| response := default_response; log := log s0; calls := calls s0 |}.
Proof.
  intros H0 H1 Hd Ha Hj. apply wrapper_try_Raised.
  unfold try_except, try_body, arg. rewrite H0, H1. step. rewrite Hd.
  rewrite except_clauses_generic by assumption. by destruct (is_Exception e).
Qed.

(** X3. When the event is not a mapping, formatting the debug record raises
    [TypeError]; the wrapper raises it wrapped in an [Exception], after the
    info record of the event, and the decorated function is not called. *)
Theorem wrapper_event_not_mapping axgs event context dumped s0 :
  axgs !! 0%nat = Some event → axgs !! 1%nat = Some context →
  json_dumps event = Returns dumped →
  (∀ kw, event ≠ VDict kw) →
  ∃ msg, wrapper json_dumps func axgs s0
         = Raised (Exception (TypeError msg))
             {| response := default_response;
                log := log s0 ++ [(INFO, "event: " +:+ dumped)];
                calls := calls s0 |}.
Proof.
  intros H0 H1 Hd Hk.
  assert (∃ msg, format_received event = Raises (TypeError msg)) as [msg Hf].
  { destruct event; try (by eexists). by destruct (Hk d). }
  exists msg. apply wrapper_try_Raised.
  unfold try_except, try_body, arg. rewrite H0, H1. step. rewrite Hd. cbv beta iota.
  by rewrite Hf.
Qed.

(** X4. Positional arguments after the second are ignored. *)
Theorem wrapper_extra_arguments event context rest s0 :
  wrapper json_dumps func (event :: context :: rest) s0
  = wrapper json_dumps func [event; context] s0.
Proof. reflexivity. Qed.

(** *** After the decorated function returned *)

(** X5. On success the wrapper hands three records to the logger, the event,
    the request and the envelope, none of them at error level; it has called
    the decorated function once, and the envelope is what is left in
    [response]. *)
Theorem wrapper_success_state axgs event context dumped received v text s0 :
  axgs !! 0%nat = Some event → axgs !! 1%nat = Some context →
  json_dumps event = Returns dumped →
  format_received event = Returns received →
  func event context = Returns v →
  json_dumps (VDict (("message", VStr "Success")
                       :: if is_None v then [] else [("response", v)]))
    = Returns text →
  let env := VDict [("statusCode", VStr "200"); ("body", VStr text)] in
  wrapper json_dumps func axgs s0
  = Done env
      {| response := env;
         log := log s0 ++ [(INFO, "event: " +:+ dumped); (DEBUG, received);
                           (INFO, "Returning repsonse: " +:+ str env)];
         calls := calls s0 ++ [(event, context)] |}.
Proof.
  intros H0 H1 Hd Hf Hv Ht env.
  pose proof (try_except_call axgs event context dumped received s0 H0 H1 Hd Hf) as Htry.
  rewrite Hv in Htry. cbv zeta in Htry.
  rewrite (wrapper_try_Done _ _ _ _ _ _ _ _ _ Htry eq_refl). cbv zeta. rewrite Ht.
  cbn [log calls]. by rewrite <- app_assoc.
Qed.

(** X6. When [json_dumps] raises on the body, after the decorated function
    returned, the wrapper raises that exception as it is, whatever its
    class: the last statements are outside the [try].  The envelope is
    neither logged nor returned. *)
Theorem wrapper_body_not_serializable axgs event context dumped received v e s0 :
  axgs !! 0%nat = Some event → axgs !! 1%nat = Some context →
  json_dumps event = Returns dumped →
  format_received event = Returns received →
  func event context = Returns v →
  json_dumps (VDict (("message", VStr "Success")
                       :: if is_None v then [] else [("response", v)]))
    = Raises e →
  wrapper json_dumps func axgs s0
  = Raised e
      {| response :=
           VDict [("statusCode", VStr "200");
                  ("body", VDict (("message", VStr "Success")
                                    :: if is_None v then [] else [("response", v)]))];
         log := log s0 ++ [(INFO, "event: " +:+ dumped); (DEBUG, received)];
         calls := calls s0 ++ [(event, context)] |}.
Proof.
  intros H0 H1 Hd Hf Hv Ht.
  pose proof (try_except_call axgs event context dumped received s0 H0 H1 Hd Hf) as Htry.
  rewrite Hv in Htry. cbv zeta in Htry.
  rewrite (wrapper_try_Done _ _ _ _ _ _ _ _ _ Htry eq_refl). cbv zeta. by rewrite Ht.
Qed.

(** *** After the decorated function raised *)

(** X7. An [APIGException] whose code is falsy (0, [None]) does not touch the
    [statusCode]: the envelope carries the error message with the ["200"]
    assigned before the call. *)
Theorem wrapper_APIGException_falsy_code axgs event context dumped received m code text s0 :
  axgs !! 0%nat = Some event → axgs !! 1%nat = Some context →
  json_dumps event = Returns dumped →
  format_received event = Returns received →
  func event context = Raises (APIGException m code) →
  truthy code = false →
  json_dumps (VDict [("message", VStr ("Error: " +:+ m)); ("response", VDict [])])
    = Returns text →
  ∃ s1, wrapper json_dumps func axgs s0
        = Done (VDict [("statusCode", VStr "200"); ("body", VStr text)]) s1.
Proof.
  intros H0 H1 Hd Hf Hv Hc Ht.
  pose proof (try_except_call axgs event context dumped received s0 H0 H1 Hd Hf) as Htry.
  rewrite Hv in Htry. cbv zeta in Htry. cbn [except_clauses exn_str exn_code] in Htry.
  unfold setup_error_response, assign_in, assign, get_response, set_response in Htry.
  revert Htry. step. simpl. rewrite Hc. intros Htry.
  rewrite (wrapper_try_Done _ _ _ _ _ _ _ _ _ Htry eq_refl). cbv zeta. cbn [is_None].
  rewrite Ht. eauto.
Qed.

(** X8. The message an [APIGException] puts in the envelope is also handed to
    the logger at error level, between the records of the request and of the
    envelope; the decorated function was called once. *)
Theorem wrapper_APIGException_state axgs event context dumped received m code text s0 :
  axgs !! 0%nat = Some event → axgs !! 1%nat = Some context →
  json_dumps event = Returns dumped →
  format_received event = Returns received →
  func event context = Raises (APIGException m code) →
  json_dumps (VDict [("message", VStr ("Error: " +:+ m)); ("response", VDict [])])
    = Returns text →
  let env := VDict [("statusCode", if truthy code then code else VStr "200");
                    ("body", VStr text)] in
  wrapper json_dumps func axgs s0
  = Done env
      {| response := env;
         log := log s0 ++ [(INFO, "event: " +:+ dumped); (DEBUG, received);
                           (ERROR, "Error: " +:+ m);
                           (INFO, "Returning repsonse: " +:+ str env)];
         calls := calls s0 ++ [(event, context)] |}.
Proof.
  intros H0 H1 Hd Hf Hv Ht env.
  pose proof (try_except_call axgs event context dumped received s0 H0 H1 Hd Hf) as Htry.
  rewrite Hv in Htry. cbv zeta in Htry. cbn [except_clauses exn_str exn_code] in Htry.
  unfold setup_error_response, assign_in, assign, get_response, set_response in Htry.
  revert Htry. step. simpl. subst env.
  destruct (truthy code); simpl; intros Htry;
    rewrite (wrapper_try_Done _ _ _ _ _ _ _ _ _ Htry eq_refl); cbv zeta; cbn [is_None];
    rewrite Ht; cbn [log calls]; by rewrite <- !app_assoc.
Qed.

(** X17. The text of a [JSONDecodeError] of the decorated function goes
    nowhere: the envelope and the records handed to the logger hold the
    fixed message alone, the error record included. *)
Theorem wrapper_JSONDecodeError_state axgs event context dumped received msg text s0 :
  axgs !! 0%nat = Some event → axgs !! 1%nat = Some context →
  json_dumps event = Returns dumped →
  format_received event = Returns received →
  func event context = Raises (JSONDecodeError msg) →
  json_dumps (VDict [("message", VStr "Input data is not JSON"); ("response", VDict [])])
    = Returns text →
  let env := VDict [("statusCode", VStr "200"); ("body", VStr text)] in
  wrapper json_dumps func axgs s0
  = Done env
      {| response := env;
         log := log s0 ++ [(INFO, "event: " +:+ dumped); (DEBUG, received);
                           (ERROR, "Input data is not JSON");
                           (INFO, "Returning repsonse: " +:+ str env)];
         calls := calls s0 ++ [(event, context)] |}.
Proof.
  intros H0 H1 Hd Hf Hv Ht env.
  pose proof (try_except_call axgs event context dumped received s0 H0 H1 Hd Hf) as Htry.
  rewrite Hv in Htry. cbv zeta in Htry. cbn [except_clauses] in Htry.
  unfold setup_error_response, assign_in, assign, get_response, set_response in Htry.
  revert Htry. step. simpl. intros Htry. subst env.
  rewrite (wrapper_try_Done _ _ _ _ _ _ _ _ _ Htry eq_refl). cbv zeta. cbn [is_None].
  rewrite Ht. cbn [log calls]. by rewrite <- !app_assoc.
Qed.

(** *** A function that validates its input *)

(** X9. A decorated function that starts with [require_valid_inputs] on a
    mapping without all the required fields makes the wrapper return the
    envelope with [statusCode] 400 and the message that lists the supplied
    keys. *)
Theorem wrapper_invalid_inputs axgs event context dumped received d required
    (rest : unit → result pyval) text s0 :
  axgs !! 0%nat = Some event → axgs !! 1%nat = Some context →
  json_dumps event = Returns dumped →
  format_received event = Returns received →
  func event context = require_valid_inputs (Some d) required ≫= rest →
  required_fields_found (Some d) required = false →
  json_dumps (VDict [("message",
                      VStr ("Error: " +:+ "Invalid input parameters: "
                            +:+ str (VList (map VStr (dict_keys d)))));
                     ("response", VDict [])])
    = Returns text →
  ∃ s1, wrapper json_dumps func axgs s0
        = Done (VDict [("statusCode", VInt 400); ("body", VStr text)]) s1.
Proof.
  intros H0 H1 Hd Hf Hv Hr Ht.
  remember ("Invalid input parameters: " +:+ str (VList (map VStr (dict_keys d)))) as msg
    eqn:Hmsg.
  assert (func event context = Raises (APIGException msg (VInt 400))) as Hv'.
  { rewrite Hv. unfold require_valid_inputs. rewrite Hr, Hmsg. reflexivity. }
  clear Hv Hmsg. rename Hv' into Hv.
  pose proof (try_except_call axgs event context dumped received s0 H0 H1 Hd Hf) as Htry.
  rewrite Hv in Htry. cbv zeta in Htry. cbn [except_clauses exn_str exn_code] in Htry.
  unfold setup_error_response, assign_in, assign, get_response, set_response in Htry.
  revert Htry. step. simpl. intros Htry.
  rewrite (wrapper_try_Done _ _ _ _ _ _ _ _ _ Htry eq_refl). cbv zeta. cbn [is_None].
  rewrite Ht. eauto.
Qed.

(** X10. When the mapping such a function validates is [None], the
    [AttributeError] of the validator is no [APIGException]: the wrapper
    raises it wrapped in an [Exception] and returns no envelope. *)
Theorem wrapper_invalid_inputs_None axgs event context dumped received required
    (rest : unit → result pyval) s0 :
  axgs !! 0%nat = Some event → axgs !! 1%nat = Some context →
  json_dumps event = Returns dumped →
  format_received event = Returns received →
  func event context = require_valid_inputs None required ≫= rest →
  wrapper json_dumps func axgs s0
  = Raised (Exception (AttributeError "'NoneType' object has no attribute 'keys'"))
      {| response :=
           VDict [("statusCode", VStr "200");
                  ("body", VDict [("message", VStr "Success"); ("response", VDict [])])];
         log := log s0 ++ [(INFO, "event: " +:+ dumped); (DEBUG, received)];
         calls := calls s0 ++ [(event, context)] |}.
Proof.
  intros H0 H1 Hd Hf Hv. cbn in Hv. apply wrapper_try_Raised.
  rewrite (try_except_call axgs event context dumped received s0 H0 H1 Hd Hf).
  by rewrite Hv.
Qed.

(** *** Every invocation *)

Ltac frame :=
  cbn [log calls]; (split; [repeat apply prefix_app_r; reflexivity | eauto 7]).

Lemma try_except_frame axgs s0 :
  match try_except (try_body json_dumps func axgs) except_clauses
          {| response := default_response; log := log s0; calls := calls s0 |} with
  | Done _ s' | Raised _ s' =>
      log s0 `prefix_of` log s'
      ∧ (calls s' = calls s0
         ∨ ∃ event context, axgs !! 0%nat = Some event ∧ axgs !! 1%nat = Some context
                            ∧ calls s' = calls s0 ++ [(event, context)])
  end.
Proof.
  unfold try_except, try_body, arg.
  destruct (axgs !! 0%nat) as [event|] eqn:H0; [| step; simpl; frame].
  destruct (axgs !! 1%nat) as [context|] eqn:H1; [| step; simpl; frame].
  step. destruct (json_dumps event) as [dumped|e].
  2:{ destruct e; simpl; unfold setup_error_response, assign_in, assign,
        get_response, set_response; step; simpl; try destruct (truthy code); simpl; frame. }
  destruct (format_received event) as [received|e] eqn:Hf.
  2:{ apply format_received_Raises in Hf as [[k ->]|[m ->]]; simpl; frame. }
  unfold call, assign, assign_in, get_response, set_response. step. simpl.
  destruct (func event context) as [v|e]; simpl; [frame |].
  destruct e; simpl; unfold setup_error_response, assign_in, assign,
    get_response, set_response; step; simpl; try destruct (truthy code); simpl; frame.
Qed.

(** X11. Whatever its arguments and however it ends, an invocation keeps
    the records logged before it, and calls the decorated function at most
    once, with its first two positional arguments. *)
Theorem wrapper_frame axgs s0 :
  match wrapper json_dumps func axgs s0 with
  | Done _ s1 | Raised _ s1 =>
      log s0 `prefix_of` log s1
      ∧ (calls s1 = calls s0
         ∨ ∃ event context, axgs !! 0%nat = Some event ∧ axgs !! 1%nat = Some context
                            ∧ calls s1 = calls s0 ++ [(event, context)])
  end.
Proof.
  pose proof (try_except_frame axgs s0) as Hframe.
  destruct (try_except _ _ _) as [u s'|e s'] eqn:Htry.
  - destruct (try_except_Done _ _ _ _ _ _ Htry) as (sc & m & v & Hr & _).
    rewrite (wrapper_try_Done _ _ _ _ _ _ _ _ _ Htry Hr). cbv zeta.
    destruct Hframe as [Hlog Hcalls].
    destruct (json_dumps _); cbn [log calls]; (split; [| exact Hcalls]);
      [by apply prefix_app_r | exact Hlog].
  - by rewrite (wrapper_try_Raised _ _ _ _ _ _ Htry).
Qed.

Lemma try_except_Done_domain axgs event dumped s0 u s' :
  axgs !! 0%nat = Some event → json_dumps event = Returns dumped →
  try_except (try_body json_dumps func axgs) except_clauses
    {| response := default_response; log := log s0; calls := calls s0 |} = Done u s' →
  ∃ sc m v,
    response s' = VDict [("statusCode", sc);
                         ("body", VDict [("message", VStr m); ("response", v)])]
    ∧ (sc = VStr "200"
       ∨ truthy sc = true
         ∧ ∃ context m', func event context = Raises (APIGException m' sc))
    ∧ (m = "Success" ∨ m = "Input data is not JSON" ∨ ∃ m', m = "Error: " +:+ m').
Proof.
  intros H0 Hd. unfold try_except, try_body, arg. rewrite H0.
  destruct (axgs !! 1%nat) as [context|] eqn:H1; [| step; discriminate].
  step. rewrite Hd. cbv beta iota.
  destruct (format_received event) as [received|e] eqn:Hf.
  2:{ apply format_received_Raises in Hf as [[k ->]|[m ->]]; discriminate. }
  unfold call, assign, assign_in, get_response, set_response. step. simpl.
  destruct (func event context) as [v|e] eqn:Hv; simpl.
  - intros [= <- <-]. simpl. eexists _, _, _. split_and!; [reflexivity | by left | by left].
  - destruct e; simpl; try discriminate;
      unfold setup_error_response, assign_in, assign, get_response, set_response;
      step; simpl.
    + destruct (truthy code) eqn:Hc; simpl; intros [= <- <-]; simpl;
        eexists _, _, _; (split_and!; [reflexivity | | right; right; by eexists]).
      * right. split; [done |]. by exists context, message.
      * by left.
    + intros [= <- <-]. simpl. eexists _, _, _.
      split_and!; [reflexivity | by left | right; by left].
Qed.

(** X12. When [json_dumps] accepts the event, every envelope the wrapper
    returns has as [statusCode] the ["200"] or the truthy code of an
    [APIGException] the decorated function raised (a 500 is such a code,
    the default of the class included), and as message ["Success"],
    ["Input data is not JSON"] or a text that starts with ["Error: "]:
    the message of the default response is never returned. *)
Theorem wrapper_envelope_domain axgs event dumped s0 env s1 :
  axgs !! 0%nat = Some event → json_dumps event = Returns dumped →
  wrapper json_dumps func axgs s0 = Done env s1 →
  ∃ sc m v text,
    env = VDict [("statusCode", sc); ("body", VStr text)]
    ∧ json_dumps (VDict (("message", VStr m) :: if is_None v then [] else [("response", v)]))
      = Returns text
    ∧ (sc = VStr "200"
       ∨ truthy sc = true
         ∧ ∃ context m', func event context = Raises (APIGException m' sc))
    ∧ (m = "Success" ∨ m = "Input data is not JSON" ∨ ∃ m', m = "Error: " +:+ m')
    ∧ m ≠ "Error saving data.  Check logs for more info.".
Proof.
  intros H0 Hd Hw.
  destruct (try_except (try_body json_dumps func axgs) except_clauses
              {| response := default_response; log := log s0; calls := calls s0 |})
    as [u s'|e s'] eqn:Htry.
  - destruct (try_except_Done_domain _ _ _ _ _ _ H0 Hd Htry) as (sc & m & v & Hr & Hsc & Hm).
    rewrite (wrapper_try_Done _ _ _ _ _ _ _ _ _ Htry Hr) in Hw. cbv zeta in Hw.
    destruct (json_dumps (VDict _)) as [text|] eqn:Ht; [| discriminate].
    injection Hw as <- _. exists sc, m, v, text. split_and!; try done.
    destruct Hm as [->|[->|[m' ->]]]; discriminate.
  - rewrite (wrapper_try_Raised _ _ _ _ _ _ Htry) in Hw. discriminate.
Qed.

End Handler.

End WrapperFacts.

(** ** The validators on every mapping *)

Module ValidatorFacts.
Import Py Apigateway ApigatewayFacts.

Lemma required_fields_found_Some (d : pydict) (required : gset string) :
  required_fields_found (Some d) required = true
  ↔ d ≠ [] ∧ ∀ k, k ∈ required → k ∈ dict_keys d.
Proof.
  unfold required_fields_found. destruct (present (Some d)) eqn:Hp.
  - apply present_Some in Hp. rewrite bool_decide_eq_true. split.
    + intros Heq. split; [done |]. intros k Hk. apply elem_of_iter_keys.
      rewrite <- Heq in Hk. by apply elem_of_intersection in Hk as [_ ?].
    + intros [_ Hall]. apply set_eq. intros k.
      rewrite elem_of_intersection, elem_of_iter_keys.
      split; [by intros [? _] | intros Hk; split; [done | by apply Hall]].
  - split; [done |]. intros [Hne _]. apply present_Some in Hne. congruence.
Qed.

Lemma dict_keys_set k v (d : pydict) x :
  x ∈ dict_keys d → x ∈ dict_keys (dict_set k v d).
Proof.
  induction d as [|[k' v'] d IH]; simpl; [by intros ?%elem_of_nil |].
  intros [->|Hx]%elem_of_cons; destruct (decide (k = k')); simpl;
    rewrite elem_of_cons; auto.
Qed.

(** X13. The empty mapping is rejected whatever is required, even when
    nothing is: the validator raises [APIGException] with code 400 and an
    empty list of keys.  With nothing required, every other mapping passes. *)
Theorem require_valid_inputs_empty :
  (∀ required : gset string,
     require_valid_inputs (Some []) required
     = Raises (APIGException "Invalid input parameters: []" (VInt 400)))
  ∧ (∀ d : pydict, d ≠ [] → require_valid_inputs (Some d) ∅ = Returns tt).
Proof.
  split; [reflexivity |]. intros d Hd. unfold require_valid_inputs.
  assert (required_fields_found (Some d) ∅ = true) as ->; [| reflexivity].
  apply required_fields_found_Some. split; [done |]. by intros k ?%elem_of_empty.
Qed.

(** X14. A mapping that has the required fields still has them after an
    entry is set, and has every part of them: acceptance is kept when the
    mapping grows and when the requirement shrinks. *)
Theorem required_fields_found_mono (d : pydict) (required required' : gset string) k v :
  required_fields_found (Some d) required = true →
  required' ⊆ required →
  required_fields_found (Some (dict_set k v d)) required' = true.
Proof.
  intros [Hne Hall]%required_fields_found_Some Hsub.
  apply required_fields_found_Some. split.
  - destruct d as [|[k' v'] d]; simpl; [done |]. by destruct (decide (k = k')).
  - intros x Hx. apply dict_keys_set, Hall, Hsub, Hx.
Qed.

(** X15. The required fields are found exactly when, taken as optional
    fields, they are all found. *)
Theorem required_fields_found_optional (supplied : option pydict) (required : gset string) :
  required_fields_found supplied required = true
  ↔ optional_fields_found supplied required = FoundSet required.
Proof.
  unfold required_fields_found, optional_fields_found.
  destruct (present supplied); [| done].
  rewrite bool_decide_eq_true. split; [by intros -> | by intros [= ->]].
Qed.

(** X16. The validators look at the keys of the mapping and never at the
    values: a field whose value is [None] is found like any other. *)
Theorem validators_keys_only (d d' : pydict) (fields : gset string) :
  dict_keys d = dict_keys d' →
  required_fields_found (Some d) fields = required_fields_found (Some d') fields
  ∧ optional_fields_found (Some d) fields = optional_fields_found (Some d') fields
  ∧ require_valid_inputs (Some d) fields = require_valid_inputs (Some d') fields.
Proof.
  intros Hk.
  assert (present (Some d) = present (Some d')) as Hp
    by (destruct d, d'; simpl in *; congruence).
  unfold require_valid_inputs, required_fields_found, optional_fields_found, keys_of,
    iter_keys. by rewrite Hp, Hk.
Qed.

End ValidatorFacts.

(** ** The further behaviour on sample invocations *)

Module BehaviourExamples.
Import Py Apigateway Json Examples WrapperFacts ValidatorFacts.

Lemma wrapper_too_few_arguments_witness :
  wrapper json_dumps (returning item) [event] start
  = Raised (Exception (IndexError "tuple index out of range"))
      {| response := default_response; log := log start; calls := calls start |}.
Proof. apply wrapper_too_few_arguments. simpl. lia. Defined.

Lemma wrapper_event_not_serializable_witness :
  wrapper (bounded_dumps 1) (returning item) [event; context] start
  = Raised (Exception (OtherException "RecursionError"
                         "maximum recursion depth exceeded while encoding a JSON object"))
      {| response := default_response; log := log start; calls := calls start |}.
Proof.
  apply (wrapper_event_not_serializable (bounded_dumps 1) (returning item)
           [event; context] event context
           (OtherException "RecursionError"
              "maximum recursion depth exceeded while encoding a JSON object") start);
    (reflexivity || discriminate).
Defined.

Lemma wrapper_event_not_mapping_witness :
  ∃ msg, wrapper json_dumps (returning item) [VList []; context] start
         = Raised (Exception (TypeError msg))
             {| response := default_response;
                log := log start ++ [(INFO, "event: " +:+ "[]")];
                calls := calls start |}.
Proof.
  apply (wrapper_event_not_mapping json_dumps (returning item) [VList []; context]
           (VList []) context "[]" start); (reflexivity || discriminate).
Defined.

Lemma wrapper_success_state_witness :
  wrapper json_dumps (returning VNone) [event; context] start
  = Done (VDict [("statusCode", VStr "200");
                 ("body", VStr (dumps (VDict [("message", VStr "Success")])))])
      {| response :=
           VDict [("statusCode", VStr "200");
                  ("body", VStr (dumps (VDict [("message", VStr "Success")])))];
         log := log start
                ++ [(INFO, "event: " +:+ dumps event);
                    (DEBUG, "Received '/items' request with params: {'id': '7'} and body: None");
                    (INFO, "Returning repsonse: "
                             +:+ str (VDict [("statusCode", VStr "200");
                                             ("body", VStr (dumps (VDict [("message", VStr "Success")])))]))];
         calls := calls start ++ [(event, context)] |}.
Proof.
  apply (wrapper_success_state json_dumps (returning VNone) [event; context] event context
           (dumps event)
           "Received '/items' request with params: {'id': '7'} and body: None"
           VNone (dumps (VDict [("message", VStr "Success")])) start); reflexivity.
Defined.

Lemma wrapper_body_not_serializable_witness :
  wrapper (bounded_dumps 2) (returning item) [event; context] start
  = Raised (OtherException "RecursionError"
              "maximum recursion depth exceeded while encoding a JSON object")
      {| response :=
           VDict [("statusCode", VStr "200");
                  ("body", VDict [("message", VStr "Success"); ("response", item)])];
         log := log start
                ++ [(INFO, "event: " +:+ dumps event);
                    (DEBUG, "Received '/items' request with params: {'id': '7'} and body: None")];
         calls := calls start ++ [(event, context)] |}.
Proof.
  apply (wrapper_body_not_serializable (bounded_dumps 2) (returning item) [event; context]
           event context (dumps event)
           "Received '/items' request with params: {'id': '7'} and body: None"
           item
           (OtherException "RecursionError"
              "maximum recursion depth exceeded while encoding a JSON object") start);
    reflexivity.
Defined.

Lemma wrapper_APIGException_falsy_code_witness :
  ∃ s1, wrapper json_dumps (raising (APIGException "Payment required" VNone))
          [event; context] start
        = Done (VDict [("statusCode", VStr "200");
                       ("body", VStr (dumps (VDict [("message", VStr "Error: Payment required");
                                                    ("response", VDict [])])))]) s1.
Proof.
  apply (wrapper_APIGException_falsy_code json_dumps
           (raising (APIGException "Payment required" VNone)) [event; context]
           event context (dumps event)
           "Received '/items' request with params: {'id': '7'} and body: None"
           "Payment required" VNone); reflexivity.
Defined.

Lemma wrapper_APIGException_state_witness :
  wrapper json_dumps (raising (APIGException "Payment required" (VInt 402)))
    [event; context] start
  = Done (VDict [("statusCode", VInt 402);
                 ("body", VStr (dumps (VDict [("message", VStr "Error: Payment required");
                                              ("response", VDict [])])))])
      {| response :=
           VDict [("statusCode", VInt 402);
                  ("body", VStr (dumps (VDict [("message", VStr "Error: Payment required");
                                               ("response", VDict [])])))];
         log := log start
                ++ [(INFO, "event: " +:+ dumps event);
                    (DEBUG, "Received '/items' request with params: {'id': '7'} and body: None");
                    (ERROR, "Error: " +:+ "Payment required");
                    (INFO, "Returning repsonse: "
                             +:+ str (VDict [("statusCode", VInt 402);
                                             ("body", VStr (dumps (VDict [("message", VStr "Error: Payment required");
                                                                          ("response", VDict [])])))]))];
         calls := calls start ++ [(event, context)] |}.
Proof.
  apply (wrapper_APIGException_state json_dumps
           (raising (APIGException "Payment required" (VInt 402))) [event; context]
           event context (dumps event)
           "Received '/items' request with params: {'id': '7'} and body: None"
           "Payment required" (VInt 402)
           (dumps (VDict [("message", VStr "Error: Payment required");
                          ("response", VDict [])])) start); reflexivity.
Defined.

Lemma wrapper_JSONDecodeError_state_witness :
  wrapper json_dumps (raising (JSONDecodeError "Expecting value")) [event; context] start
  = Done (VDict [("statusCode", VStr "200");
                 ("body", VStr (dumps (VDict [("message", VStr "Input data is not JSON");
                                              ("response", VDict [])])))])
      {| response :=
           VDict [("statusCode", VStr "200");
                  ("body", VStr (dumps (VDict [("message", VStr "Input data is not JSON");
                                               ("response", VDict [])])))];
         log := log start
                ++ [(INFO, "event: " +:+ dumps event);
                    (DEBUG, "Received '/items' request with params: {'id': '7'} and body: None");
                    (ERROR, "Input data is not JSON");
                    (INFO, "Returning repsonse: "
                             +:+ str (VDict [("statusCode", VStr "200");
                                             ("body", VStr (dumps (VDict [("message", VStr "Input data is not JSON");
                                                                          ("response", VDict [])])))]))];
         calls := calls start ++ [(event, context)] |}.
Proof.
  apply (wrapper_JSONDecodeError_state json_dumps (raising (JSONDecodeError "Expecting value"))
           [event; context] event context (dumps event)
           "Received '/items' request with params: {'id': '7'} and body: None"
           "Expecting value"
           (dumps (VDict [("message", VStr "Input data is not JSON");
                          ("response", VDict [])])) start); reflexivity.
Defined.

Lemma wrapper_invalid_inputs_witness :
  ∃ s1, wrapper json_dumps (validating {["id"; "page"]}) [event; context] start
        = Done (VDict [("statusCode", VInt 400);
                       ("body", VStr (dumps (VDict [("message", VStr "Error: Invalid input parameters: ['id']");
                                                    ("response", VDict [])])))]) s1.
Proof.
  apply (wrapper_invalid_inputs json_dumps (validating {["id"; "page"]}) [event; context]
           event context (dumps event)
           "Received '/items' request with params: {'id': '7'} and body: None"
           [("id", VStr "7")] {["id"; "page"]} (λ _, Returns item)); reflexivity.
Defined.

Lemma wrapper_invalid_inputs_None_witness :
  wrapper json_dumps (validating {["id"]}) [plain_event; context] start
  = Raised (Exception (AttributeError "'NoneType' object has no attribute 'keys'"))
      {| response :=
           VDict [("statusCode", VStr "200");
                  ("body", VDict [("message", VStr "Success"); ("response", VDict [])])];
         log := log start
                ++ [(INFO, "event: " +:+ dumps plain_event);
                    (DEBUG, "Received '/items' request with params: None and body: None")];
         calls := calls start ++ [(plain_event, context)] |}.
Proof.
  apply (wrapper_invalid_inputs_None json_dumps (validating {["id"]}) [plain_event; context]
           plain_event context (dumps plain_event)
           "Received '/items' request with params: None and body: None"
           {["id"]} (λ _, Returns item) start); reflexivity.
Defined.

Lemma wrapper_envelope_domain_witness :
  ∃ sc m v text,
    VDict [("statusCode", VInt 402);
           ("body", VStr (dumps (VDict [("message", VStr "Error: Payment required");
                                        ("response", VDict [])])))]
    = VDict [("statusCode", sc); ("body", VStr text)]
    ∧ json_dumps (VDict (("message", VStr m) :: if is_None v then [] else [("response", v)]))
      = Returns text
    ∧ (sc = VStr "200"
       ∨ truthy sc = true
         ∧ ∃ context' m',
             raising (APIGException "Payment required" (VInt 402)) event context'
             = Raises (APIGException m' sc))
    ∧ (m = "Success" ∨ m = "Input data is not JSON" ∨ ∃ m', m = "Error: " +:+ m')
    ∧ m ≠ "Error saving data.  Check logs for more info.".
Proof.
  apply (wrapper_envelope_domain json_dumps
           (raising (APIGException "Payment required" (VInt 402))) [event; context]
           event (dumps event) start
           (VDict [("statusCode", VInt 402);
                   ("body", VStr (dumps (VDict [("message", VStr "Error: Payment required");
                                                ("response", VDict [])])))])
           {| response :=
                VDict [("statusCode", VInt 402);
                       ("body", VStr (dumps (VDict [("message", VStr "Error: Payment required");
                                                    ("response", VDict [])])))];
              log := [(INFO, "event: " +:+ dumps event);
                      (DEBUG, "Received '/items' request with params: {'id': '7'} and body: None");
                      (ERROR, "Error: Payment required");
                      (INFO, "Returning repsonse: "
                               +:+ str (VDict [("statusCode", VInt 402);
                                               ("body", VStr (dumps (VDict [("message", VStr "Error: Payment required");
                                                                            ("response", VDict [])])))]))];
              calls := [(event, context)] |}); reflexivity.
Defined.

Lemma require_valid_inputs_empty_witness :
  require_valid_inputs (Some [("id", VNone)]) ∅ = Returns tt.
Proof. apply (proj2 require_valid_inputs_empty [("id", VNone)]). discriminate. Defined.

Lemma required_fields_found_mono_witness :
  required_fields_found (Some (dict_set "page" (VInt 2) [("id", VStr "7"); ("sort", VNone)]))
    {["id"]} = true.
Proof.
  apply (required_fields_found_mono [("id", VStr "7"); ("sort", VNone)]
           {["id"; "sort"]} {["id"]} "page" (VInt 2)); [reflexivity |].
  intros k Hk. apply elem_of_union. left. exact Hk.
Defined.

Lemma required_fields_found_optional_witness :
  optional_fields_found (Some [("id", VStr "7"); ("sort", VNone)]) {["id"]}
  = FoundSet {["id"]}.
Proof.
  apply (proj1 (required_fields_found_optional (Some [("id", VStr "7"); ("sort", VNone)])
                  {["id"]})).
  reflexivity.
Defined.

Lemma validators_keys_only_witness :
  required_fields_found (Some [("id", VNone)]) {["id"]}
  = required_fields_found (Some [("id", VStr "7")]) {["id"]}
  ∧ optional_fields_found (Some [("id", VNone)]) {["id"]}
    = optional_fields_found (Some [("id", VStr "7")]) {["id"]}
  ∧ require_valid_inputs (Some [("id", VNone)]) {["id"]}
    = require_valid_inputs (Some [("id", VStr "7")]) {["id"]}.
Proof. apply (validators_keys_only [("id", VNone)] [("id", VStr "7")] {["id"]}). reflexivity. Defined.

End BehaviourExamples.
